(** * Project Urdhyuth safety advisor: a shallow embedding of [app.py]

    The page is a straight-line Streamlit script.  Every rerun reads eight
    sliders, builds a one-row data frame, asks the pickled model for a class
    index and a probability vector, looks the index up in [classes], draws
    the gauge and the metrics, and finally walks through the threshold
    alerts.  The embedding keeps that shape: the script is a computation in
    a small writer-with-exceptions monad whose log records, in order, every
    call made to the model and every element put on the page.  Static
    decoration (page configuration, titles, sub-headers, rules, the
    expander text) carries no data and is left out. *)

From Stdlib Require Import ZArith List String Bool Lia.
From Stdlib Require Import SpecFloat.
Import ListNotations.

Local Open Scope string_scope.
Local Open Scope Z_scope.
Local Open Scope list_scope.

(** ** Python values *)

Module Py.

(** A Python [float] is an IEEE-754 binary64 value. *)
Definition float := spec_float.

Definition prec : Z := 53.
Definition emax : Z := 1024.

(** The double denoted by an integral literal such as [8.0]. *)
Definition float_of_Z (z : Z) : float := binary_normalize prec emax z 0 false.

(** [a < b] and [a > b] on floats: both are False when an operand is NaN. *)
Definition float_lt (a b : float) : bool := SFltb a b.
Definition float_gt (a b : float) : bool := SFltb b a.
Definition float_le (a b : float) : bool := SFleb a b.

Definition is_finite (f : float) : bool :=
  match f with
  | S754_zero _ | S754_finite _ _ _ => true
  | S754_infinity _ | S754_nan => false
  end.

(** The exceptions the script can end with.  [Raised] is whatever the model
    object throws from [predict] or [predict_proba]; [StopException] is what
    [st.stop()] uses to end the run. *)
Inductive exn : Type :=
| IndexError
| ValueError
| StopException
| Raised (what : string).

(** [l[i]] on a Python list: a negative index counts from the end, anything
    outside [-len l, len l) raises IndexError. *)
Definition getitem {A : Type} (l : list A) (i : Z) : exn + A :=
  let n := Z.of_nat (List.length l) in
  let j := if i <? 0 then i + n else i in
  if (j <? 0) || (n <=? j) then inl IndexError
  else match nth_error l (Z.to_nat j) with
       | Some a => inr a
       | None => inl IndexError
       end.

End Py.

Import Py.

(** ** The data frame and the pickled artifacts *)

(** A cell of the one-row frame: the integer sliders give int64 columns, the
    vertical-speed slider a float64 column. *)
Inductive cell : Type :=
| int64 (z : Z)
| float64 (f : float).

(** A one-row [pd.DataFrame]: the columns in insertion order. *)
Definition DataFrame : Type := list (string * cell).

(** [model.predict(X)[0]] and [model.predict_proba(X)[0]] for a one-row
    frame [X]. *)
Record Model : Type := {
  predict : DataFrame -> exn + Z;
  predict_proba : DataFrame -> exn + list float
}.

Record Scaler : Type := {
  transform : DataFrame -> DataFrame
}.

(** What [joblib.load] finds next to the script. *)
Record disk : Type := {
  urdhyuth_safety_model_pkl : option Model;
  scaler_pkl : option Scaler
}.

(** ** The page *)

Inductive event : Type :=
| model_predict (X : DataFrame)
| model_predict_proba (X : DataFrame)
| st_plotly_chart (value : Z) (steps : list (Z * Z * string))
| st_markdown (color status : string)
| st_metric (label : string) (value : Z) (unit : string) (delta_color : string)
| st_bar_chart (rows : list (string * float))
| st_warning (body : string)
| st_error (body : string)
| st_success (body : string).

Module Script.

(** A run ends normally or with an exception; either way what was logged up
    to that point stays. *)
Definition script (A : Type) : Type := ((exn + A) * list event)%type.

Definition ret {A : Type} (a : A) : script A := (inr a, []).

Definition bind {A B : Type} (c : script A) (k : A -> script B) : script B :=
  match fst c with
  | inl e => (inl e, snd c)
  | inr a => (fst (k a), snd c ++ snd (k a))
  end.

Definition emit (ev : event) : script unit := (inr tt, [ev]).

Definition raise {A : Type} (e : exn) : script A := (inl e, []).

Definition lift {A : Type} (r : exn + A) : script A := (r, []).

End Script.

Import Script.

Declare Scope script_scope.
Delimit Scope script_scope with script.
Notation "x <- c ;; k" := (bind c (fun x => k))
  (at level 61, c at next level, right associativity) : script_scope.
Notation "c ;; k" := (bind c (fun _ => k))
  (at level 61, right associativity) : script_scope.
Local Open Scope script_scope.

(** ** The script *)

(** The values of the eight sliders. *)
Record widgets : Type := {
  payload : Z;
  altitude : Z;
  soc : Z;
  ambient_temp : Z;
  wind_speed : Z;
  climb_rate : float;
  battery_temp : Z;
  thrust_demand : Z
}.

(** The float literals of the script. *)
Definition f8_0 : float := Eval cbv in float_of_Z 8.
Definition fm5_0 : float := Eval cbv in float_of_Z (-5).
Definition fm3_0 : float := Eval cbv in float_of_Z (-3).
Definition fm10_0 : float := Eval cbv in float_of_Z (-10).
Definition f10_0 : float := Eval cbv in float_of_Z 10.
Definition f0_0 : float := Eval cbv in float_of_Z 0.

(** The slider ranges [min, max] a widget value always lies in. *)
Definition slider_ranges (w : widgets) : Prop :=
  0 <= payload w <= 800 /\
  0 <= altitude w <= 800 /\
  0 <= soc w <= 100 /\
  -20 <= ambient_temp w <= 60 /\
  0 <= wind_speed w <= 35 /\
  float_le fm10_0 (climb_rate w) = true /\
  float_le (climb_rate w) f10_0 = true /\
  20 <= battery_temp w <= 90 /\
  0 <= thrust_demand w <= 100.

(** The slider defaults. *)
Definition slider_defaults : widgets := {|
  payload := 500;
  altitude := 150;
  soc := 80;
  ambient_temp := 25;
  wind_speed := 5;
  climb_rate := f0_0;
  battery_temp := 35;
  thrust_demand := 60
|}.

Definition load_assets (d : disk) : option (Model * Scaler) :=
  match urdhyuth_safety_model_pkl d with
  | None => None
  | Some model =>
      match scaler_pkl d with
      | None => None
      | Some scaler => Some (model, scaler)
      end
  end.

Definition input_data (w : widgets) : DataFrame :=
  [ ("altitude_m", int64 (altitude w));
    ("wind_speed_m_s", int64 (wind_speed w));
    ("payload_kg", int64 (payload w));
    ("ambient_temp_c", int64 (ambient_temp w));
    ("soc_percent", int64 (soc w));
    ("battery_temp_c", int64 (battery_temp w));
    ("climb_rate_m_s", float64 (climb_rate w));
    ("thrust_demand_percent", int64 (thrust_demand w)) ].

Definition classes : list string := ["Marginal"; "Safe"; "Unsafe"].

(** [(gauge_value, gauge_color, status_text)] for a label. *)
Definition gauge (prediction_label : string) : Z * string * string :=
  if (prediction_label =? "Unsafe")%string then (15, "red", "UNSAFE")
  else if (prediction_label =? "Marginal")%string then (50, "orange", "MARGINAL")
  else (85, "green", "SAFE").

Definition gauge_value (prediction_label : string) : Z :=
  fst (fst (gauge prediction_label)).
Definition gauge_color (prediction_label : string) : string :=
  snd (fst (gauge prediction_label)).
Definition status_text (prediction_label : string) : string :=
  snd (gauge prediction_label).

Definition steps : list (Z * Z * string) :=
  [ (0, 33, "#ff4b4b"); (33, 66, "#ffa421"); (66, 100, "#21c354") ].

(** [pd.DataFrame(probabilities, index=classes, columns=[...])]: the lengths
    have to agree. *)
Definition prob_df (probabilities : list float) : exn + list (string * float) :=
  if (List.length probabilities =? List.length classes)%nat
  then inr (combine classes probabilities)
  else inl ValueError.

Definition msg_climb : string :=
  "⚠️ **HIGH CLIMB RATE:** Excessive Motor Stress (>8 m/s)".
Definition msg_sink : string :=
  "🚨 **SINK RATE:** Risk of Vortex Ring State (<-5 m/s)".
Definition msg_landing : string :=
  "📉 **HARD LANDING:** Reduce Descent Rate Immediately".
Definition msg_overweight : string :=
  "🚨 **OVERWEIGHT:** Exceeds 600kg Design Limit".
Definition msg_altitude : string :=
  "🚨 **ALTITUDE:** Exceeds Service Ceiling (610m)".
Definition msg_heat : string :=
  "🚨 **HEAT CRITICAL:** Exceeds +45°C Limit".
Definition msg_freezing : string :=
  "❄️ **FREEZING:** Below -10°C Min Limit".
Definition msg_reserve : string :=
  "⚠️ **RESERVE:** Battery below 30% mandate".
Definition msg_wind : string :=
  "⚠️ **WIND:** High Turbulence Risk".
Definition msg_nominal : string :=
  "✅ Operations within PRD Spec".

(** The "Active Alerts" part of the second column.  [active_alerts] is the
    script's flag, threaded through the tests in the order they are
    written. *)
Definition active_alerts_pass (w : widgets) : script unit :=
  let active_alerts := false in
  active_alerts <-
    (if float_gt (climb_rate w) f8_0 then
       emit (st_warning msg_climb) ;; ret true
     else if float_lt (climb_rate w) fm5_0 then
       emit (st_error msg_sink) ;; ret true
     else ret active_alerts) ;;
  active_alerts <-
    (if (altitude w <? 30) && float_lt (climb_rate w) fm3_0 then
       emit (st_error msg_landing) ;; ret true
     else ret active_alerts) ;;
  active_alerts <-
    (if payload w >? 600 then
       emit (st_error msg_overweight) ;; ret true
     else ret active_alerts) ;;
  active_alerts <-
    (if altitude w >? 610 then
       emit (st_error msg_altitude) ;; ret true
     else ret active_alerts) ;;
  active_alerts <-
    (if ambient_temp w >? 45 then
       emit (st_error msg_heat) ;; ret true
     else if ambient_temp w <? -10 then
       emit (st_error msg_freezing) ;; ret true
     else ret active_alerts) ;;
  active_alerts <-
    (if soc w <? 30 then
       emit (st_warning msg_reserve) ;; ret true
     else ret active_alerts) ;;
  active_alerts <-
    (if wind_speed w >? 15 then
       emit (st_warning msg_wind) ;; ret true
     else ret active_alerts) ;;
  if negb active_alerts then emit (st_success msg_nominal) else ret tt.

(** Everything after the assets are loaded. *)
Definition page (model : Model) (scaler : Scaler) (w : widgets) : script unit :=
  let X := input_data w in
  prediction_index <- (emit (model_predict X) ;; lift (predict model X)) ;;
  probabilities <-
    (emit (model_predict_proba X) ;; lift (predict_proba model X)) ;;
  prediction_label <- lift (getitem classes prediction_index) ;;
  (* col1 *)
  emit (st_plotly_chart (gauge_value prediction_label) steps) ;;
  emit (st_markdown (gauge_color prediction_label)
          (status_text prediction_label)) ;;
  emit (st_metric "Payload Margin" (600 - payload w) " kg" "normal") ;;
  emit (st_metric "Temp Margin" (45 - ambient_temp w) " °C" "inverse") ;;
  emit (st_metric "Batt Reserve" (soc w) "%"
          (if soc w >=? 30 then "off" else "inverse")) ;;
  emit (st_metric "Alt Margin" (610 - altitude w) " m" "normal") ;;
  (* col2 *)
  rows <- lift (prob_df probabilities) ;;
  emit (st_bar_chart rows) ;;
  active_alerts_pass w.

Definition msg_not_found : string :=
  "Error: Model files not found. Please make sure 'urdhyuth_safety_model.pkl' and 'scaler.pkl' are in the same folder.".

(** The whole script. *)
Definition app (d : disk) (w : widgets) : script unit :=
  match load_assets d with
  | None => emit (st_error msg_not_found) ;; raise StopException
  | Some (model, scaler) => page model scaler w
  end.

(** ** Reading the log *)

Inductive severity : Type := Warning | Critical.

(** A banner of the alert list: [st.warning] banners are warnings,
    [st.error] banners are critical. *)
Record alert : Type := {
  alert_severity : severity;
  alert_message : string
}.

Definition alert_of_event (ev : event) : option alert :=
  match ev with
  | st_warning body => Some {| alert_severity := Warning; alert_message := body |}
  | st_error body => Some {| alert_severity := Critical; alert_message := body |}
  | _ => None
  end.

Fixpoint alerts_of (log : list event) : list alert :=
  match log with
  | [] => []
  | ev :: log' =>
      match alert_of_event ev with
      | Some a => a :: alerts_of log'
      | None => alerts_of log'
      end
  end.

(** The bodies of the [st.success] banners. *)
Fixpoint nominal_of (log : list event) : list string :=
  match log with
  | [] => []
  | st_success body :: log' => body :: nominal_of log'
  | _ :: log' => nominal_of log'
  end.

(** The status headings drawn under the gauge. *)
Fixpoint statuses_of (log : list event) : list string :=
  match log with
  | [] => []
  | st_markdown _ status :: log' => status :: statuses_of log'
  | _ :: log' => statuses_of log'
  end.

(** The gauge readings that were plotted. *)
Fixpoint gauges_of (log : list event) : list Z :=
  match log with
  | [] => []
  | st_plotly_chart value _ :: log' => value :: gauges_of log'
  | _ :: log' => gauges_of log'
  end.

(** The frames handed to the model, in call order. *)
Fixpoint model_inputs (log : list event) : list DataFrame :=
  match log with
  | [] => []
  | model_predict X :: log' => X :: model_inputs log'
  | model_predict_proba X :: log' => X :: model_inputs log'
  | _ :: log' => model_inputs log'
  end.

(** The probability rows that were charted. *)
Fixpoint charts_of (log : list event) : list (list (string * float)) :=
  match log with
  | [] => []
  | st_bar_chart rows :: log' => rows :: charts_of log'
  | _ :: log' => charts_of log'
  end.

(** The alert list of a snapshot: the banners of the alert pass. *)
Definition active_alerts (w : widgets) : list alert :=
  alerts_of (snd (active_alerts_pass w)).

Definition failed {A : Type} (c : script A) : bool :=
  match fst c with inl _ => true | inr _ => false end.

(** The banners of the alert list. *)
Definition is_banner (ev : event) : Prop :=
  match ev with
  | st_warning _ | st_error _ | st_success _ => True
  | _ => False
  end.

(** What the first column draws for a label. *)
Definition col1 (w : widgets) (prediction_label : string) : list event :=
  [ st_plotly_chart (gauge_value prediction_label) steps;
    st_markdown (gauge_color prediction_label) (status_text prediction_label);
    st_metric "Payload Margin" (600 - payload w) " kg" "normal";
    st_metric "Temp Margin" (45 - ambient_temp w) " °C" "inverse";
    st_metric "Batt Reserve" (soc w) "%"
      (if soc w >=? 30 then "off" else "inverse");
    st_metric "Alt Margin" (610 - altitude w) " m" "normal" ].

(** The two calls to the model, in the order the script makes them. *)
Definition model_calls (w : widgets) : list event :=
  [ model_predict (input_data w); model_predict_proba (input_data w) ].

Section Outcome.

Variables (model : Model) (scaler : Scaler) (w : widgets).

(** The five ways a run of [page] can go: [predict] throws,
    [predict_proba] throws, the label lookup throws, the probability frame
    cannot be built, or the page is drawn to the end. *)
Inductive outcome : Prop :=
| predict_raised (e : exn)
    (Hpage : page model scaler w = (inl e, [model_predict (input_data w)]))
    (Hpredict : predict model (input_data w) = inl e)
| proba_raised (i : Z) (e : exn)
    (Hpage : page model scaler w = (inl e, model_calls w))
    (Hpredict : predict model (input_data w) = inr i)
    (Hproba : predict_proba model (input_data w) = inl e)
| lookup_raised (i : Z) (p : list float)
    (Hpage : page model scaler w = (inl IndexError, model_calls w))
    (Hpredict : predict model (input_data w) = inr i)
    (Hproba : predict_proba model (input_data w) = inr p)
    (Hindex : ~ (-3 <= i <= 2))
| chart_raised (i : Z) (p : list float) (l : string)
    (Hpage : page model scaler w =
             (inl ValueError, model_calls w ++ col1 w l))
    (Hpredict : predict model (input_data w) = inr i)
    (Hproba : predict_proba model (input_data w) = inr p)
    (Hlabel : getitem classes i = inr l)
    (Hlength : List.length p <> 3%nat)
| completed (i : Z) (p : list float) (l : string)
    (Hpage : page model scaler w =
             (inr tt, model_calls w ++ col1 w l ++
                      [st_bar_chart (combine classes p)] ++
                      snd (active_alerts_pass w)))
    (Hpredict : predict model (input_data w) = inr i)
    (Hproba : predict_proba model (input_data w) = inr p)
    (Hlabel : getitem classes i = inr l)
    (Hlength : List.length p = 3%nat).

End Outcome.

(** ** The rule table of the specification *)

Module Spec.

Inductive rule : Type :=
| HighClimbRate
| SinkRate
| HardLanding
| Overweight
| AltitudeCeiling
| HeatCritical
| Freezing
| ReserveLow
| HighWind.

Definition all_rules : list rule :=
  [ HighClimbRate; SinkRate; HardLanding; Overweight; AltitudeCeiling;
    HeatCritical; Freezing; ReserveLow; HighWind ].

(** The condition column, as a test. *)
Definition condition (r : rule) (w : widgets) : bool :=
  match r with
  | HighClimbRate => float_gt (climb_rate w) f8_0
  | SinkRate => float_lt (climb_rate w) fm5_0
  | HardLanding => (altitude w <? 30) && float_lt (climb_rate w) fm3_0
  | Overweight => payload w >? 600
  | AltitudeCeiling => altitude w >? 610
  | HeatCritical => ambient_temp w >? 45
  | Freezing => ambient_temp w <? -10
  | ReserveLow => soc w <? 30
  | HighWind => wind_speed w >? 15
  end.

(** The condition column, as a proposition: every comparison is strict. *)
Definition holds (r : rule) (w : widgets) : Prop :=
  match r with
  | HighClimbRate => float_gt (climb_rate w) f8_0 = true
  | SinkRate => float_lt (climb_rate w) fm5_0 = true
  | HardLanding => altitude w < 30 /\ float_lt (climb_rate w) fm3_0 = true
  | Overweight => payload w > 600
  | AltitudeCeiling => altitude w > 610
  | HeatCritical => ambient_temp w > 45
  | Freezing => ambient_temp w < -10
  | ReserveLow => soc w < 30
  | HighWind => wind_speed w > 15
  end.

(** The severity column. *)
Definition severity_of (r : rule) : severity :=
  match r with
  | HighClimbRate => Warning
  | SinkRate => Critical
  | HardLanding => Critical
  | Overweight => Critical
  | AltitudeCeiling => Critical
  | HeatCritical => Critical
  | Freezing => Critical
  | ReserveLow => Warning
  | HighWind => Warning
  end.

(** The banner text that stands for each rule on the page. *)
Definition banner (r : rule) : string :=
  match r with
  | HighClimbRate => msg_climb
  | SinkRate => msg_sink
  | HardLanding => msg_landing
  | Overweight => msg_overweight
  | AltitudeCeiling => msg_altitude
  | HeatCritical => msg_heat
  | Freezing => msg_freezing
  | ReserveLow => msg_reserve
  | HighWind => msg_wind
  end.

Definition alert_for (r : rule) : alert :=
  {| alert_severity := severity_of r; alert_message := banner r |}.

(** The banner call the script makes for a rule. *)
Definition event_for (r : rule) : event :=
  match severity_of r with
  | Warning => st_warning (banner r)
  | Critical => st_error (banner r)
  end.

(** The colour bands of the 0-100 gauge: red [0,33), orange [33,66),
    green [66,100]. *)
Definition band (v : Z) : option string :=
  if (0 <=? v) && (v <? 33) then Some "red"
  else if (33 <=? v) && (v <? 66) then Some "orange"
  else if (66 <=? v) && (v <=? 100) then Some "green"
  else None.

(** The ordinal table 0 -> Marginal, 1 -> Safe, 2 -> Unsafe. *)
Definition label_of_index (i : Z) : option string :=
  match i with
  | 0 => Some "Marginal"
  | 1 => Some "Safe"
  | 2 => Some "Unsafe"
  | _ => None
  end.

(** A field that is not a finite number: only the float column can be. *)
Definition non_finite (w : widgets) : bool := negb (is_finite (climb_rate w)).

End Spec.

(** ** Inputs used in the examples *)

Definition zero3 : list float := [f0_0; f0_0; f0_0].

(** A model that answers the same index for every frame. *)
Definition constant_model (i : Z) : Model :=
  {| predict := fun _ => inr i; predict_proba := fun _ => inr zero3 |}.

(** A model whose [predict] throws. *)
Definition broken_model : Model :=
  {| predict := fun _ => inl (Raised "NotFittedError");
     predict_proba := fun _ => inr zero3 |}.

Definition identity_scaler : Scaler := {| transform := fun X => X |}.

Definition dropping_scaler : Scaler := {| transform := fun _ => [] |}.

Definition with_climb_rate (c : float) (w : widgets) : widgets :=
  {| payload := payload w; altitude := altitude w; soc := soc w;
     ambient_temp := ambient_temp w; wind_speed := wind_speed w;
     climb_rate := c; battery_temp := battery_temp w;
     thrust_demand := thrust_demand w |}.

Definition with_altitude (a : Z) (w : widgets) : widgets :=
  {| payload := payload w; altitude := a; soc := soc w;
     ambient_temp := ambient_temp w; wind_speed := wind_speed w;
     climb_rate := climb_rate w; battery_temp := battery_temp w;
     thrust_demand := thrust_demand w |}.

Definition nan_snapshot : widgets := with_climb_rate S754_nan slider_defaults.

Definition ceiling_snapshot : widgets := with_altitude 610 slider_defaults.

(** ** Further observers and inputs *)

(** The first metric tile with a given label: its value and delta colour. *)
Fixpoint metric_of (label : string) (log : list event) : option (Z * string) :=
  match log with
  | [] => None
  | st_metric label' value _ delta_color :: log' =>
      if (label' =? label)%string then Some (value, delta_color)
      else metric_of label log'
  | _ :: log' => metric_of label log'
  end.

(** Two snapshots that agree on every field the alert tests read, that is
    on all but the battery temperature and the motor power demand. *)
Definition same_alert_inputs (w w' : widgets) : Prop :=
  payload w = payload w' /\
  altitude w = altitude w' /\
  soc w = soc w' /\
  ambient_temp w = ambient_temp w' /\
  wind_speed w = wind_speed w' /\
  climb_rate w = climb_rate w'.

Definition f9_0 : float := Eval cbv in float_of_Z 9.
Definition fm4_0 : float := Eval cbv in float_of_Z (-4).
Definition fm6_0 : float := Eval cbv in float_of_Z (-6).

(** A snapshot with the battery temperature and the power demand at their
    defaults. *)
Definition snapshot (payload altitude soc ambient_temp wind_speed : Z)
    (climb_rate : float) : widgets :=
  {| payload := payload; altitude := altitude; soc := soc;
     ambient_temp := ambient_temp; wind_speed := wind_speed;
     climb_rate := climb_rate; battery_temp := 35; thrust_demand := 60 |}.

(** Slider values at which six banners are up at once. *)
Definition six_alerts_snapshot : widgets := snapshot 700 650 10 50 20 f9_0.

(** Slider values at which a given rule, and only that rule, fires. *)
Definition trigger (r : Spec.rule) : widgets :=
  match r with
  | Spec.HighClimbRate => snapshot 500 150 80 25 5 f9_0
  | Spec.SinkRate => snapshot 500 150 80 25 5 fm6_0
  | Spec.HardLanding => snapshot 500 20 80 25 5 fm4_0
  | Spec.Overweight => snapshot 601 150 80 25 5 f0_0
  | Spec.AltitudeCeiling => snapshot 500 611 80 25 5 f0_0
  | Spec.HeatCritical => snapshot 500 150 80 46 5 f0_0
  | Spec.Freezing => snapshot 500 150 80 (-11) 5 f0_0
  | Spec.ReserveLow => snapshot 500 150 29 25 5 f0_0
  | Spec.HighWind => snapshot 500 150 80 25 16 f0_0
  end.


(** A disk on which [scaler.pkl] is missing. *)
Definition disk_without_scaler : disk :=
  {| urdhyuth_safety_model_pkl := Some (constant_model 1);
     scaler_pkl := None |}.

(** * Properties *)

(** ** Floats *)

Ltac float_cases c :=
  let s := fresh "s" in
  destruct c as [s | s | | s ? ?]; try destruct s;
  unfold float_gt, float_lt, float_le, SFltb, SFleb, SFcompare,
    f8_0, fm5_0, fm3_0, fm10_0, f10_0, is_finite;
  cbv beta iota.

Section FloatFacts.

Variable c : float.

Lemma climb_excludes_sink :
  float_gt c f8_0 = true -> float_lt c fm5_0 = false.
Proof. float_cases c; solve [ reflexivity | discriminate ]. Qed.

Lemma slider_range_finite :
  float_le fm10_0 c = true -> float_le c f10_0 = true -> is_finite c = true.
Proof. float_cases c; solve [ reflexivity | discriminate ]. Qed.

End FloatFacts.

(** The literals are valid doubles and denote the integers they are written
    with: mantissa times two to the exponent. *)
Example float_literals_exact :
  valid_binary prec emax f8_0 = true /\
  valid_binary prec emax fm5_0 = true /\
  valid_binary prec emax fm3_0 = true /\
  valid_binary prec emax fm10_0 = true /\
  valid_binary prec emax f10_0 = true /\
  f8_0 = S754_finite false (Z.to_pos (8 * 2 ^ 49)) (-49) /\
  fm5_0 = S754_finite true (Z.to_pos (5 * 2 ^ 50)) (-50) /\
  fm3_0 = S754_finite true (Z.to_pos (3 * 2 ^ 51)) (-51) /\
  fm10_0 = S754_finite true (Z.to_pos (10 * 2 ^ 49)) (-49) /\
  f10_0 = S754_finite false (Z.to_pos (10 * 2 ^ 49)) (-49) /\
  f0_0 = S754_zero false.
Proof. repeat split; vm_compute; reflexivity. Qed.

(** ** The log observers *)

Lemma alerts_of_app (l1 l2 : list event) :
  alerts_of (l1 ++ l2) = alerts_of l1 ++ alerts_of l2.
Proof.
  induction l1 as [| ev l1 IH]; [reflexivity |].
  simpl. destruct (alert_of_event ev); simpl; now rewrite IH.
Qed.

Lemma alerts_of_rules (rs : list Spec.rule) :
  alerts_of (map Spec.event_for rs) = map Spec.alert_for rs.
Proof.
  induction rs as [| r rs IH]; [reflexivity |].
  simpl. rewrite <- IH. now destruct r.
Qed.

Lemma banners_only (l : list event) :
  Forall is_banner l ->
  statuses_of l = [] /\ gauges_of l = [] /\ model_inputs l = [] /\
  charts_of l = [].
Proof.
  induction 1 as [| ev l Hev _ IH]; [now repeat split |].
  destruct ev; simpl in *; try contradiction; exact IH.
Qed.

Lemma alert_for_inj (r r' : Spec.rule) :
  Spec.alert_for r = Spec.alert_for r' -> r = r'.
Proof. destruct r, r'; solve [ reflexivity | discriminate ]. Qed.

(** ** The alert pass *)

Section AlertPass.

Variable w : widgets.

Lemma heat_excludes_freezing :
  (ambient_temp w >? 45) = true -> (ambient_temp w <? -10) = false.
Proof. intros H. apply Z.ltb_ge. apply Z.gtb_lt in H. lia. Qed.

Lemma condition_holds (r : Spec.rule) :
  Spec.condition r w = true <-> Spec.holds r w.
Proof.
  destruct r; unfold Spec.condition, Spec.holds;
    rewrite ?andb_true_iff, ?Z.gtb_lt, ?Z.ltb_lt; intuition lia.
Qed.

(** The pass never raises. *)
Lemma pass_completes : fst (active_alerts_pass w) = inr tt.
Proof.
  unfold active_alerts_pass.
  destruct (float_gt (climb_rate w) f8_0), (float_lt (climb_rate w) fm5_0),
    ((altitude w <? 30) && float_lt (climb_rate w) fm3_0),
    (payload w >? 600), (altitude w >? 610), (ambient_temp w >? 45),
    (ambient_temp w <? -10), (soc w <? 30), (wind_speed w >? 15);
    reflexivity.
Qed.

(** What the pass logs: one banner per rule whose test succeeds, in the
    order of the table, or else the single success banner. *)
Lemma pass_log :
  snd (active_alerts_pass w) =
  map Spec.event_for (filter (fun r => Spec.condition r w) Spec.all_rules) ++
  (if existsb (fun r => Spec.condition r w) Spec.all_rules
   then [] else [st_success msg_nominal]).
Proof.
  unfold active_alerts_pass, Spec.all_rules, filter, existsb, Spec.condition.
  destruct (float_gt (climb_rate w) f8_0) eqn:Hc;
    [ rewrite (climb_excludes_sink _ Hc)
    | destruct (float_lt (climb_rate w) fm5_0) ];
    destruct ((altitude w <? 30) && float_lt (climb_rate w) fm3_0),
      (payload w >? 600), (altitude w >? 610);
    destruct (ambient_temp w >? 45) eqn:Ht;
    try rewrite (heat_excludes_freezing Ht);
    destruct (soc w <? 30), (wind_speed w >? 15);
    try destruct (ambient_temp w <? -10); reflexivity.
Qed.

Lemma pass_banners : Forall is_banner (snd (active_alerts_pass w)).
Proof.
  rewrite pass_log. apply Forall_app. split.
  - apply Forall_forall. intros ev Hev. apply in_map_iff in Hev.
    destruct Hev as [r [<- _]]. now destruct r.
  - destruct (existsb _ _); repeat constructor.
Qed.

Lemma active_alerts_table :
  active_alerts w =
  map Spec.alert_for (filter (fun r => Spec.condition r w) Spec.all_rules).
Proof.
  unfold active_alerts. rewrite pass_log, alerts_of_app, alerts_of_rules.
  destruct (existsb _ _); simpl; now rewrite app_nil_r.
Qed.

Lemma fires_iff (r : Spec.rule) :
  In (Spec.alert_for r) (active_alerts w) <-> Spec.condition r w = true.
Proof.
  rewrite active_alerts_table, in_map_iff. split.
  - intros [r' [Heq Hin]]. apply alert_for_inj in Heq. subst r'.
    now apply filter_In in Hin.
  - intros Hc. exists r. split; [reflexivity |].
    apply filter_In. split; [| exact Hc]. destruct r; simpl; tauto.
Qed.

End AlertPass.

(** C1.  Each of the nine rules puts its banner in the alert list exactly
    when its strict comparison holds, with the severity of the table:
    high climb rate (climb_rate > 8.0, warning), sink rate
    (climb_rate < -5.0, critical), hard landing (altitude < 30 and
    climb_rate < -3.0, critical), overweight (payload > 600, critical),
    altitude ceiling (altitude > 610, critical), heat (ambient_temp > 45,
    critical), freezing (ambient_temp < -10, critical), battery reserve
    (soc < 30, warning), wind (wind_speed > 15, warning).  Nothing else is
    in the list, and at altitude 610 exactly there is no ceiling alert. *)
Theorem alert_rules_fire_exactly (w : widgets) :
  (forall r, In (Spec.alert_for r) (active_alerts w) <-> Spec.holds r w) /\
  (forall a, In a (active_alerts w) ->
     exists r, a = Spec.alert_for r /\ Spec.holds r w) /\
  (In {| alert_severity := Warning; alert_message := msg_climb |}
      (active_alerts w) <-> float_gt (climb_rate w) f8_0 = true) /\
  (In {| alert_severity := Critical; alert_message := msg_sink |}
      (active_alerts w) <-> float_lt (climb_rate w) fm5_0 = true) /\
  (In {| alert_severity := Critical; alert_message := msg_landing |}
      (active_alerts w) <->
        altitude w < 30 /\ float_lt (climb_rate w) fm3_0 = true) /\
  (In {| alert_severity := Critical; alert_message := msg_overweight |}
      (active_alerts w) <-> payload w > 600) /\
  (In {| alert_severity := Critical; alert_message := msg_altitude |}
      (active_alerts w) <-> altitude w > 610) /\
  (In {| alert_severity := Critical; alert_message := msg_heat |}
      (active_alerts w) <-> ambient_temp w > 45) /\
  (In {| alert_severity := Critical; alert_message := msg_freezing |}
      (active_alerts w) <-> ambient_temp w < -10) /\
  (In {| alert_severity := Warning; alert_message := msg_reserve |}
      (active_alerts w) <-> soc w < 30) /\
  (In {| alert_severity := Warning; alert_message := msg_wind |}
      (active_alerts w) <-> wind_speed w > 15) /\
  (altitude w = 610 ->
     ~ In {| alert_severity := Critical; alert_message := msg_altitude |}
          (active_alerts w)).
Proof.
  assert (Hall : forall r,
             In (Spec.alert_for r) (active_alerts w) <-> Spec.holds r w).
  { intros r. rewrite fires_iff. apply condition_holds. }
  split; [exact Hall |].
  split.
  { intros a Ha. rewrite active_alerts_table in Ha.
    apply in_map_iff in Ha. destruct Ha as [r [<- Hin]].
    exists r. split; [reflexivity |].
    apply condition_holds. now apply filter_In in Hin. }
  split; [exact (Hall Spec.HighClimbRate) |].
  split; [exact (Hall Spec.SinkRate) |].
  split; [exact (Hall Spec.HardLanding) |].
  split; [exact (Hall Spec.Overweight) |].
  split; [exact (Hall Spec.AltitudeCeiling) |].
  split; [exact (Hall Spec.HeatCritical) |].
  split; [exact (Hall Spec.Freezing) |].
  split; [exact (Hall Spec.ReserveLow) |].
  split; [exact (Hall Spec.HighWind) |].
  intros H610 Hin. apply (Hall Spec.AltitudeCeiling) in Hin.
  simpl in Hin. lia.
Qed.

Lemma alert_rules_fire_exactly_at_ceiling :
  altitude ceiling_snapshot = 610 /\
  ~ In {| alert_severity := Critical; alert_message := msg_altitude |}
       (active_alerts ceiling_snapshot).
Proof.
  split; [reflexivity |].
  apply (alert_rules_fire_exactly ceiling_snapshot). reflexivity.
Defined.

(** C6.  The climb-rate banner and the sink-rate banner are never both in
    the alert list, and neither are the heat banner and the freezing
    banner. *)
Theorem exclusive_pairs_never_both (w : widgets) :
  ~ (In (Spec.alert_for Spec.HighClimbRate) (active_alerts w) /\
     In (Spec.alert_for Spec.SinkRate) (active_alerts w)) /\
  ~ (In (Spec.alert_for Spec.HeatCritical) (active_alerts w) /\
     In (Spec.alert_for Spec.Freezing) (active_alerts w)).
Proof.
  rewrite !fires_iff. simpl. split.
  - intros [Hc Hs]. rewrite (climb_excludes_sink _ Hc) in Hs. discriminate.
  - intros [Hh Hf]. rewrite (heat_excludes_freezing _ Hh) in Hf. discriminate.
Qed.

(** ** The label lookup *)

Lemma getitem_classes_out (i : Z) :
  ~ (-3 <= i <= 2) -> getitem classes i = inl IndexError.
Proof.
  intros Hout. unfold getitem. simpl List.length.
  destruct (i <? 0) eqn:Hneg.
  - apply Z.ltb_lt in Hneg.
    replace (i + Z.of_nat 3 <? 0) with true; [reflexivity |].
    symmetry. apply Z.ltb_lt. lia.
  - apply Z.ltb_ge in Hneg.
    replace (i <? 0) with false by (symmetry; apply Z.ltb_ge; lia).
    replace (Z.of_nat 3 <=? i) with true; [reflexivity |].
    symmetry. apply Z.leb_le. lia.
Qed.

Lemma getitem_classes_in (i : Z) :
  -3 <= i <= 2 ->
  getitem classes i =
  inr (if (i =? 0) || (i =? -3) then "Marginal"
       else if (i =? 1) || (i =? -2) then "Safe" else "Unsafe").
Proof.
  intros Hin.
  assert (H : i = -3 \/ i = -2 \/ i = -1 \/ i = 0 \/ i = 1 \/ i = 2) by lia.
  destruct H as [-> | [-> | [-> | [-> | [-> | ->]]]]]; reflexivity.
Qed.

Lemma getitem_classes_label (i : Z) (l : string) :
  getitem classes i = inr l ->
  -3 <= i <= 2 /\ (l = "Marginal" \/ l = "Safe" \/ l = "Unsafe").
Proof.
  intros H.
  assert (Hin : -3 <= i <= 2).
  { destruct (Z_le_dec (-3) i) as [Hlo | Hlo];
      [destruct (Z_le_dec i 2) as [Hhi | Hhi]; [lia |] |];
      rewrite getitem_classes_out in H by lia; discriminate. }
  split; [exact Hin |].
  rewrite (getitem_classes_in _ Hin) in H. injection H as <-.
  destruct ((i =? 0) || (i =? -3)); [tauto |].
  destruct ((i =? 1) || (i =? -2)); tauto.
Qed.

(** C4.  The index is translated by position in [classes]: 0 is Marginal,
    1 is Safe, 2 is Unsafe; whatever label the lookup returns is one of
    the three, and index 2 gives Unsafe and nothing else. *)
Theorem index_to_label_table :
  getitem classes 0 = inr "Marginal" /\
  getitem classes 1 = inr "Safe" /\
  getitem classes 2 = inr "Unsafe" /\
  (forall i, 0 <= i <= 2 -> Some (getitem classes i) =
                            option_map inr (Spec.label_of_index i)) /\
  (forall i l, getitem classes i = inr l ->
     l = "Safe" \/ l = "Marginal" \/ l = "Unsafe") /\
  (forall r, getitem classes 2 = r -> r = inr "Unsafe").
Proof.
  repeat split; try reflexivity.
  - intros i Hi.
    assert (H : i = 0 \/ i = 1 \/ i = 2) by lia.
    destruct H as [-> | [-> | ->]]; reflexivity.
  - intros i l H. apply getitem_classes_label in H. tauto.
  - intros r <-. reflexivity.
Qed.

Lemma index_to_label_table_at_two :
  getitem classes 2 = inr "Unsafe" /\
  ("Unsafe" = "Safe" \/ "Unsafe" = "Marginal" \/ "Unsafe" = "Unsafe").
Proof.
  split; [reflexivity |].
  apply (proj1 (proj2 (proj2 (proj2 (proj2 index_to_label_table)))) 2).
  reflexivity.
Defined.

(** C10.  A negative index in {-3, -2, -1} does not make the lookup fail:
    -1 gives Unsafe, -2 gives Safe, -3 gives Marginal; the lookup fails
    exactly for the indices outside {-3, ..., 2}. *)
Theorem negative_index_wraps :
  getitem classes (-1) = inr "Unsafe" /\
  getitem classes (-2) = inr "Safe" /\
  getitem classes (-3) = inr "Marginal" /\
  (forall i, (exists e, getitem classes i = inl e) <-> ~ (-3 <= i <= 2)) /\
  (forall i, ~ (-3 <= i <= 2) -> getitem classes i = inl IndexError).
Proof.
  repeat split; try reflexivity.
  - intros [e He] Hin. rewrite (getitem_classes_in _ Hin) in He. discriminate.
  - intros Hout. exists IndexError. now apply getitem_classes_out.
  - apply getitem_classes_out.
Qed.

Lemma negative_index_wraps_at_three :
  getitem classes 3 = inl IndexError /\ getitem classes (-4) = inl IndexError.
Proof.
  split.
  - apply (proj2 (proj2 (proj2 (proj2 negative_index_wraps))) 3). lia.
  - apply (proj2 (proj2 (proj2 (proj2 negative_index_wraps))) (-4)). lia.
Defined.

(** ** The gauge *)

(** C8.  The gauge reads 15 for Unsafe, 50 for Marginal and 85 for Safe,
    which lie in the red band [0,33), the orange band [33,66) and the green
    band [66,100]; the colour chosen for the heading is the colour of that
    band, and this covers every label the lookup can return. *)
Theorem gauge_value_in_band :
  gauge "Unsafe" = (15, "red", "UNSAFE") /\
  gauge "Marginal" = (50, "orange", "MARGINAL") /\
  gauge "Safe" = (85, "green", "SAFE") /\
  0 <= gauge_value "Unsafe" < 33 /\
  33 <= gauge_value "Marginal" < 66 /\
  66 <= gauge_value "Safe" <= 100 /\
  (forall i l, getitem classes i = inr l ->
     Spec.band (gauge_value l) = Some (gauge_color l) /\
     (l = "Unsafe" /\ gauge_value l = 15 \/
      l = "Marginal" /\ gauge_value l = 50 \/
      l = "Safe" /\ gauge_value l = 85)).
Proof.
  repeat split; try reflexivity; try (cbv; congruence).
  - apply getitem_classes_label in H.
    destruct H as [_ [-> | [-> | ->]]]; reflexivity.
  - apply getitem_classes_label in H.
    destruct H as [_ [-> | [-> | ->]]]; cbv; tauto.
Qed.

Lemma gauge_value_in_band_at_one :
  getitem classes 1 = inr "Safe" /\
  Spec.band (gauge_value "Safe") = Some (gauge_color "Safe").
Proof.
  split; [reflexivity |].
  apply (proj2 (proj2 (proj2 (proj2 (proj2 (proj2 gauge_value_in_band)))))
           1 "Safe").
  reflexivity.
Defined.

(** ** The whole page *)

Section Page.

Variables (model : Model) (scaler : Scaler) (w : widgets).

Let X : DataFrame := input_data w.

Lemma page_predict_raises (e : exn) :
  predict model X = inl e ->
  page model scaler w = (inl e, [model_predict X]).
Proof. intros H. unfold page. fold X. rewrite H. reflexivity. Qed.

Lemma page_proba_raises (i : Z) (e : exn) :
  predict model X = inr i ->
  predict_proba model X = inl e ->
  page model scaler w = (inl e, [model_predict X; model_predict_proba X]).
Proof. intros H1 H2. unfold page. fold X. rewrite H1, H2. reflexivity. Qed.

Lemma page_lookup_raises (i : Z) (p : list float) (e : exn) :
  predict model X = inr i ->
  predict_proba model X = inr p ->
  getitem classes i = inl e ->
  page model scaler w = (inl e, [model_predict X; model_predict_proba X]).
Proof.
  intros H1 H2 H3. unfold page. fold X. rewrite H1, H2.
  unfold bind at 1. simpl fst. unfold bind at 1. simpl fst.
  unfold bind at 1. unfold lift at 1. simpl fst. rewrite H3. reflexivity.
Qed.

Lemma page_chart_raises (i : Z) (p : list float) (l : string) (e : exn) :
  predict model X = inr i ->
  predict_proba model X = inr p ->
  getitem classes i = inr l ->
  prob_df p = inl e ->
  page model scaler w =
  (inl e, [model_predict X; model_predict_proba X] ++ col1 w l).
Proof.
  intros H1 H2 H3 H4. unfold page. fold X. rewrite H1, H2.
  unfold bind at 1. simpl fst. unfold bind at 1. simpl fst.
  unfold bind at 1. unfold lift at 1. simpl fst. rewrite H3.
  set (P := active_alerts_pass w). unfold bind, lift, emit.
  simpl. rewrite H4. reflexivity.
Qed.

Lemma page_completes (i : Z) (p : list float) (l : string)
    (rows : list (string * float)) :
  predict model X = inr i ->
  predict_proba model X = inr p ->
  getitem classes i = inr l ->
  prob_df p = inr rows ->
  page model scaler w =
  (inr tt, [model_predict X; model_predict_proba X] ++ col1 w l ++
           [st_bar_chart rows] ++ snd (active_alerts_pass w)).
Proof.
  intros H1 H2 H3 H4. unfold page. fold X. rewrite H1, H2.
  unfold bind at 1. simpl fst. unfold bind at 1. simpl fst.
  unfold bind at 1. unfold lift at 1. simpl fst. rewrite H3.
  pose proof (pass_completes w) as Hp.
  destruct (active_alerts_pass w) as [r log]. simpl in Hp. subst r.
  unfold bind, lift, emit. simpl. rewrite H4. reflexivity.
Qed.

Lemma page_outcome : outcome model scaler w.
Proof.
  destruct (predict model X) as [e | i] eqn:H1.
  { eapply predict_raised; eauto using page_predict_raises. }
  destruct (predict_proba model X) as [e | p] eqn:H2.
  { eapply proba_raised; eauto using page_proba_raises. }
  destruct (getitem classes i) as [e | l] eqn:H3.
  { assert (Hout : ~ (-3 <= i <= 2)).
    { intros Hin. rewrite (getitem_classes_in _ Hin) in H3. discriminate. }
    rewrite (getitem_classes_out _ Hout) in H3. injection H3 as <-.
    eapply lookup_raised; eauto.
    eapply page_lookup_raises; eauto using getitem_classes_out. }
  destruct (Nat.eqb_spec (List.length p) 3) as [Hlen | Hlen].
  - eapply completed; eauto. eapply page_completes; eauto.
    unfold prob_df. simpl List.length. now rewrite Hlen.
  - eapply chart_raised; eauto. eapply page_chart_raises; eauto.
    unfold prob_df. simpl List.length.
    now destruct (Nat.eqb_spec (List.length p) 3).
Qed.

(** The model is only ever handed the frame built from the sliders. *)
Lemma page_model_inputs :
  model_inputs (snd (page model scaler w)) = [X] \/
  model_inputs (snd (page model scaler w)) = [X; X].
Proof.
  destruct (banners_only _ (pass_banners w)) as [_ [_ [Hm _]]].
  destruct page_outcome; rewrite Hpage; simpl; rewrite ?Hm; auto.
Qed.

(** A run that fails shows no banner; a run that completes shows exactly
    those of the alert pass. *)
Lemma page_alerts :
  alerts_of (snd (page model scaler w)) =
  if failed (page model scaler w) then [] else active_alerts w.
Proof.
  destruct page_outcome; rewrite Hpage; unfold failed; simpl fst; cbv iota;
    reflexivity.
Qed.

Lemma page_nominal :
  nominal_of (snd (page model scaler w)) =
  if failed (page model scaler w) then []
  else nominal_of (snd (active_alerts_pass w)).
Proof.
  destruct page_outcome; rewrite Hpage; unfold failed; simpl fst; cbv iota;
    reflexivity.
Qed.

End Page.

(** C5.  The frame built from the sliders has exactly the eight columns
    altitude, wind speed, payload, ambient temperature, state of charge,
    battery temperature, climb rate, thrust demand, in that order, each
    holding the slider's value; it is the frame the model is called with. *)
Theorem feature_row_order (model : Model) (scaler : Scaler) (w : widgets) :
  map fst (input_data w) =
    [ "altitude_m"; "wind_speed_m_s"; "payload_kg"; "ambient_temp_c";
      "soc_percent"; "battery_temp_c"; "climb_rate_m_s";
      "thrust_demand_percent" ] /\
  map snd (input_data w) =
    [ int64 (altitude w); int64 (wind_speed w); int64 (payload w);
      int64 (ambient_temp w); int64 (soc w); int64 (battery_temp w);
      float64 (climb_rate w); int64 (thrust_demand w) ] /\
  List.length (input_data w) = 8%nat /\
  hd_error (snd (page model scaler w)) = Some (model_predict (input_data w)) /\
  Forall (eq (input_data w)) (model_inputs (snd (page model scaler w))).
Proof.
  repeat split.
  - destruct (page_outcome model scaler w); now rewrite Hpage.
  - destruct (page_model_inputs model scaler w) as [-> | ->];
      repeat constructor.
Qed.

(** C9.  The scaler that was loaded is never applied: two runs that differ
    only in the scaler log the same events and end the same way, and every
    frame the model sees is the unscaled frame of slider values. *)
Theorem scaler_never_applied (model : Model) (sc1 sc2 : Scaler)
    (w : widgets) :
  page model sc1 w = page model sc2 w /\
  app {| urdhyuth_safety_model_pkl := Some model; scaler_pkl := Some sc1 |} w =
  app {| urdhyuth_safety_model_pkl := Some model; scaler_pkl := Some sc2 |} w /\
  Forall (eq (input_data w)) (model_inputs (snd (page model sc1 w))) /\
  statuses_of (snd (page model sc1 w)) =
  statuses_of (snd (page model sc2 w)) /\
  charts_of (snd (page model sc1 w)) = charts_of (snd (page model sc2 w)).
Proof.
  assert (H : page model sc1 w = page model sc2 w) by reflexivity.
  repeat split; try (now rewrite H).
  destruct (page_model_inputs model sc1 w) as [-> | ->]; repeat constructor.
Qed.

(** A scaler that would have changed the frame makes no difference. *)
Example dropping_scaler_ignored :
  transform dropping_scaler (input_data slider_defaults) <>
  input_data slider_defaults /\
  page (constant_model 1) dropping_scaler slider_defaults =
  page (constant_model 1) identity_scaler slider_defaults.
Proof. split; [discriminate | reflexivity]. Qed.

(** When [scaler.pkl] is missing the run stops before anything is
    evaluated. *)
Example missing_scaler_stops (model : Model) (w : widgets) :
  app {| urdhyuth_safety_model_pkl := Some model; scaler_pkl := None |} w =
  (inl StopException, [st_error msg_not_found]).
Proof. reflexivity. Qed.

(** C2, as the specification states it, fails: with a NaN vertical speed the
    run is not rejected; a model that answers 1 gets the page drawn with
    the status SAFE. *)
Lemma nan_snapshot_is_classified :
  Spec.non_finite nan_snapshot = true /\
  failed (page (constant_model 1) identity_scaler nan_snapshot) = false /\
  statuses_of (snd (page (constant_model 1) identity_scaler nan_snapshot)) =
  ["SAFE"] /\
  ~ (forall (model : Model) (scaler : Scaler) (w : widgets),
       Spec.non_finite w = true -> failed (page model scaler w) = true).
Proof.
  repeat split.
  intros H.
  specialize (H (constant_model 1) identity_scaler nan_snapshot eq_refl).
  discriminate H.
Qed.

(** C2, amended.  The script has no finiteness check: for every snapshot,
    finite or not, a model that returns an index in {-3, ..., 2} and three
    probabilities gets the run completed and the status of the looked-up
    label drawn.  The sliders themselves only produce finite values. *)
Theorem no_finiteness_check (model : Model) (scaler : Scaler) (w : widgets) :
  (slider_ranges w -> Spec.non_finite w = false) /\
  (forall i p,
     predict model (input_data w) = inr i ->
     predict_proba model (input_data w) = inr p ->
     -3 <= i <= 2 ->
     List.length p = 3%nat ->
     failed (page model scaler w) = false /\
     exists l, getitem classes i = inr l /\
               statuses_of (snd (page model scaler w)) = [status_text l]).
Proof.
  split.
  - intros (_ & _ & _ & _ & _ & Hlo & Hhi & _).
    unfold Spec.non_finite. now rewrite (slider_range_finite _ Hlo Hhi).
  - intros i p H1 H2 Hin Hlen.
    destruct (banners_only _ (pass_banners w)) as [Hs _].
    destruct (page_outcome model scaler w);
      rewrite Hpredict in H1; try discriminate H1;
      injection H1 as ->;
      rewrite Hproba in H2; try discriminate H2;
      injection H2 as ->; try contradiction.
    rewrite Hpage. split; [reflexivity |].
    exists l. split; [exact Hlabel |]. simpl. now rewrite Hs.
Qed.

Lemma no_finiteness_check_at_nan :
  Spec.non_finite nan_snapshot = true /\
  failed (page (constant_model 1) identity_scaler nan_snapshot) = false /\
  Spec.non_finite slider_defaults = false.
Proof.
  split; [reflexivity |]. split.
  - apply (proj2 (no_finiteness_check (constant_model 1) identity_scaler
                    nan_snapshot) 1 zero3); try reflexivity; lia.
  - apply (proj1 (no_finiteness_check (constant_model 1) identity_scaler
                    slider_defaults)).
    unfold slider_ranges, slider_defaults; simpl.
    repeat split; try lia; discriminate.
Defined.

(** C3, as the specification states it, fails: the index -1 is outside
    {0, 1, 2}, yet the run completes and the page shows UNSAFE. *)
Lemma negative_index_is_classified :
  predict (constant_model (-1)) (input_data slider_defaults) = inr (-1) /\
  ~ (0 <= -1 <= 2) /\
  failed (page (constant_model (-1)) identity_scaler slider_defaults) = false /\
  statuses_of (snd (page (constant_model (-1)) identity_scaler slider_defaults))
  = ["UNSAFE"] /\
  ~ (forall (model : Model) (scaler : Scaler) (w : widgets) (i : Z),
       predict model (input_data w) = inr i -> ~ (0 <= i <= 2) ->
       failed (page model scaler w) = true).
Proof.
  repeat split; try lia.
  intros H.
  assert (Hout : ~ (0 <= -1 <= 2)) by lia.
  specialize (H (constant_model (-1)) identity_scaler slider_defaults (-1)
                eq_refl Hout).
  discriminate H.
Qed.

(** C3, amended.  An exception thrown by the model is the exception the run
    ends with, and an index outside {-3, ..., 2} ends the run with
    IndexError; in both cases no gauge and no status have been drawn, so no
    class is put in place of the missing one. *)
Theorem classifier_failure_propagates (model : Model) (scaler : Scaler)
    (w : widgets) :
  (forall e, predict model (input_data w) = inl e ->
     fst (page model scaler w) = inl e /\
     statuses_of (snd (page model scaler w)) = [] /\
     gauges_of (snd (page model scaler w)) = []) /\
  (forall i e, predict model (input_data w) = inr i ->
     predict_proba model (input_data w) = inl e ->
     fst (page model scaler w) = inl e /\
     statuses_of (snd (page model scaler w)) = [] /\
     gauges_of (snd (page model scaler w)) = []) /\
  (forall i p, predict model (input_data w) = inr i ->
     predict_proba model (input_data w) = inr p ->
     ~ (-3 <= i <= 2) ->
     fst (page model scaler w) = inl IndexError /\
     statuses_of (snd (page model scaler w)) = [] /\
     gauges_of (snd (page model scaler w)) = []).
Proof.
  split; [| split].
  - intros e H. now rewrite (page_predict_raises _ scaler _ _ H).
  - intros i e H1 H2. now rewrite (page_proba_raises _ scaler _ _ _ H1 H2).
  - intros i p H1 H2 Hout.
    now rewrite (page_lookup_raises _ scaler _ _ _ _ H1 H2
                   (getitem_classes_out _ Hout)).
Qed.

Lemma classifier_failure_propagates_at_broken :
  fst (page broken_model identity_scaler slider_defaults) =
    inl (Raised "NotFittedError") /\
  fst (page (constant_model 3) identity_scaler slider_defaults) =
    inl IndexError.
Proof.
  split.
  - apply (proj1 (classifier_failure_propagates broken_model identity_scaler
                    slider_defaults)).
    reflexivity.
  - apply (proj2 (proj2 (classifier_failure_propagates (constant_model 3)
                           identity_scaler slider_defaults)) 3 zero3);
      try reflexivity; lia.
Defined.

(** C7.  When none of the nine conditions holds, the pass logs the single
    success banner and nothing else: the alert list is empty and there is
    exactly one nominal status, and so it is on every page that is drawn to
    the end. *)
Theorem quiet_snapshot_is_nominal (w : widgets) :
  (forall r, ~ Spec.holds r w) ->
  snd (active_alerts_pass w) = [st_success msg_nominal] /\
  active_alerts w = [] /\
  nominal_of (snd (active_alerts_pass w)) = [msg_nominal] /\
  (forall model scaler,
     failed (page model scaler w) = false ->
     alerts_of (snd (page model scaler w)) = [] /\
     nominal_of (snd (page model scaler w)) = [msg_nominal]).
Proof.
  intros Hquiet.
  assert (Hc : forall r, Spec.condition r w = false).
  { intros r. destruct (Spec.condition r w) eqn:E; [| reflexivity].
    apply condition_holds in E. now apply Hquiet in E. }
  assert (Hlog : snd (active_alerts_pass w) = [st_success msg_nominal]).
  { rewrite pass_log. unfold Spec.all_rules, filter, existsb.
    now rewrite !Hc. }
  assert (Ha : active_alerts w = []).
  { unfold active_alerts. now rewrite Hlog. }
  repeat split; try assumption; try (now rewrite Hlog).
  - rewrite page_alerts, H. exact Ha.
  - rewrite page_nominal, H, Hlog. reflexivity.
Qed.

Lemma quiet_snapshot_is_nominal_defaults :
  altitude slider_defaults = 150 /\ wind_speed slider_defaults = 5 /\
  payload slider_defaults = 500 /\ ambient_temp slider_defaults = 25 /\
  soc slider_defaults = 80 /\ battery_temp slider_defaults = 35 /\
  climb_rate slider_defaults = f0_0 /\ thrust_demand slider_defaults = 60 /\
  (forall r, ~ Spec.holds r slider_defaults) /\
  snd (active_alerts_pass slider_defaults) = [st_success msg_nominal] /\
  active_alerts slider_defaults = [] /\
  alerts_of (snd (page (constant_model 1) identity_scaler slider_defaults))
  = [] /\
  nominal_of (snd (page (constant_model 1) identity_scaler slider_defaults))
  = [msg_nominal].
Proof.
  assert (H : forall r, ~ Spec.holds r slider_defaults).
  { intros r Hr. apply condition_holds in Hr. destruct r; discriminate Hr. }
  do 8 (split; [reflexivity |]).
  split; [exact H |].
  destruct (quiet_snapshot_is_nominal slider_defaults H)
    as (Hlog & Ha & _ & Hpage).
  split; [exact Hlog |]. split; [exact Ha |].
  apply (Hpage (constant_model 1) identity_scaler). reflexivity.
Defined.

(** * Further properties of the script *)

(** ** Loading the artifacts *)

(** X1.  When either pickle is missing the run shows the single error
    banner and stops: the model is never called and nothing else is drawn.
    This holds for a missing scaler too, although the scaler is never
    applied. *)
Theorem missing_artifact_stops (d : disk) (w : widgets) :
  urdhyuth_safety_model_pkl d = None \/ scaler_pkl d = None ->
  app d w = (inl StopException, [st_error msg_not_found]) /\
  model_inputs (snd (app d w)) = [] /\
  statuses_of (snd (app d w)) = [] /\
  nominal_of (snd (app d w)) = [].
Proof.
  intros Hmissing.
  assert (Hload : load_assets d = None).
  { unfold load_assets.
    destruct Hmissing as [-> | ->]; [reflexivity |].
    now destruct (urdhyuth_safety_model_pkl d). }
  unfold app. rewrite Hload. repeat split.
Qed.

Lemma missing_artifact_stops_without_scaler :
  scaler_pkl disk_without_scaler = None /\
  app disk_without_scaler slider_defaults =
  (inl StopException, [st_error msg_not_found]).
Proof.
  split; [reflexivity |].
  apply (missing_artifact_stops disk_without_scaler slider_defaults).
  right. reflexivity.
Defined.

Lemma page_never_reports_missing_files (model : Model) (scaler : Scaler)
    (w : widgets) :
  ~ In (st_error msg_not_found) (snd (page model scaler w)).
Proof.
  intros Hin.
  assert (Hnot : ~ In {| alert_severity := Critical;
                         alert_message := msg_not_found |}
                      (alerts_of (snd (page model scaler w)))).
  { rewrite page_alerts. destruct (failed _); [auto |].
    rewrite active_alerts_table. intros Hbad.
    apply in_map_iff in Hbad. destruct Hbad as [r [Hr _]].
    destruct r; discriminate Hr. }
  apply Hnot. clear Hnot.
  induction (snd (page model scaler w)) as [| ev log IH]; [contradiction |].
  destruct Hin as [-> | Hin]; [left; reflexivity |].
  simpl. destruct (alert_of_event ev); [right |]; auto.
Qed.

(** X2.  The "model files not found" banner is on the page exactly when one
    of the two pickles is missing; with both on disk the run is the page
    itself, which begins by calling the model. *)
Theorem not_found_banner_iff_missing (d : disk) (w : widgets) :
  (In (st_error msg_not_found) (snd (app d w)) <->
   urdhyuth_safety_model_pkl d = None \/ scaler_pkl d = None) /\
  (hd_error (snd (app d w)) = Some (model_predict (input_data w)) <->
   urdhyuth_safety_model_pkl d <> None /\ scaler_pkl d <> None).
Proof.
  unfold app, load_assets.
  destruct (urdhyuth_safety_model_pkl d) as [model |];
    [destruct (scaler_pkl d) as [scaler |] |].
  - split; split.
    + intros Hin. now apply page_never_reports_missing_files in Hin.
    + intros [H | H]; discriminate H.
    + intros _. split; discriminate.
    + intros _. destruct (page_outcome model scaler w); now rewrite Hpage.
  - split; split; simpl; auto; try discriminate.
    intros [_ H]. now contradiction H.
  - split; split; simpl; auto; try discriminate.
    intros [H _]. now contradiction H.
Qed.

(** ** How a run ends *)




(** X5.  Banners need a completed run: a run that fails shows no alert and
    no success banner whatever the slider values, and a run that completes
    shows exactly the banners of the alert pass, whatever the model
    answered. *)
Theorem banners_need_a_completed_run (model : Model) (scaler : Scaler)
    (w : widgets) :
  alerts_of (snd (page model scaler w)) =
    (if failed (page model scaler w) then [] else active_alerts w) /\
  nominal_of (snd (page model scaler w)) =
    (if failed (page model scaler w) then []
     else nominal_of (snd (active_alerts_pass w))) /\
  (forall model' scaler',
     failed (page model scaler w) = failed (page model' scaler' w) ->
     alerts_of (snd (page model scaler w)) =
     alerts_of (snd (page model' scaler' w))).
Proof.
  split; [apply page_alerts |]. split; [apply page_nominal |].
  intros model' scaler' Hsame. rewrite !page_alerts, Hsame. reflexivity.
Qed.

(** X6.  Whatever status is under the gauge names the index the model
    returned: SAFE only for 1 (or -2), UNSAFE only for 2 (or -1), MARGINAL
    only for 0 (or -3); at most one status is drawn. *)
Theorem shown_status_reflects_index (model : Model) (scaler : Scaler)
    (w : widgets) (s : string) :
  In s (statuses_of (snd (page model scaler w))) ->
  statuses_of (snd (page model scaler w)) = [s] /\
  exists i, predict model (input_data w) = inr i /\
            (s = "SAFE" /\ (i = 1 \/ i = -2) \/
             s = "UNSAFE" /\ (i = 2 \/ i = -1) \/
             s = "MARGINAL" /\ (i = 0 \/ i = -3)).
Proof.
  destruct (banners_only _ (pass_banners w)) as [Hs _].
  assert (Hlabel_status : forall i l, getitem classes i = inr l ->
            status_text l = "SAFE" /\ (i = 1 \/ i = -2) \/
            status_text l = "UNSAFE" /\ (i = 2 \/ i = -1) \/
            status_text l = "MARGINAL" /\ (i = 0 \/ i = -3)).
  { intros i l Hl.
    destruct (getitem_classes_label _ _ Hl) as [Hin _].
    rewrite (getitem_classes_in _ Hin) in Hl. injection Hl as <-.
    assert (H : i = -3 \/ i = -2 \/ i = -1 \/ i = 0 \/ i = 1 \/ i = 2)
      by lia.
    destruct H as [-> | [-> | [-> | [-> | [-> | ->]]]]]; cbv; tauto. }
  destruct (page_outcome model scaler w); rewrite Hpage; simpl;
    rewrite ?Hs; simpl; try contradiction.
  - intros [<- | []]. split; [reflexivity |]. exists i. eauto.
  - intros [<- | []]. split; [reflexivity |]. exists i. eauto.
Qed.

Lemma shown_status_reflects_index_safe :
  statuses_of (snd (page (constant_model 1) identity_scaler slider_defaults))
  = ["SAFE"].
Proof.
  apply (shown_status_reflects_index (constant_model 1) identity_scaler
           slider_defaults "SAFE").
  left. reflexivity.
Defined.



(** ** More on the alert pass *)

Section MoreFloatFacts.

Variable c : float.

Lemma climb_excludes_descent :
  float_lt c fm3_0 = true -> float_gt c f8_0 = false.
Proof. float_cases c; solve [ reflexivity | discriminate ]. Qed.

(** Below -5.0 is below -3.0, for every double. *)
Lemma sink_is_descent :
  float_lt c fm5_0 = true -> float_lt c fm3_0 = true.
Proof.
  destruct c as [s | s | | s m e]; try destruct s;
    unfold float_lt, SFltb, SFcompare, fm5_0, fm3_0; cbv beta iota;
    try solve [ reflexivity | discriminate ].
  destruct (Z.compare_spec e (-50)) as [-> | Hlt | Hgt].
  - intros _. reflexivity.
  - discriminate.
  - intros _. replace (e ?= -51) with Gt; [reflexivity |].
    symmetry. apply Z.compare_gt_iff. lia.
Qed.

End MoreFloatFacts.

Lemma existsb_filter {A : Type} (f : A -> bool) (l : list A) :
  existsb f l = match filter f l with [] => false | _ :: _ => true end.
Proof.
  induction l as [| a l IH]; [reflexivity |].
  simpl. now destruct (f a).
Qed.

Lemma nominal_of_rules (rs : list Spec.rule) :
  nominal_of (map Spec.event_for rs) = [].
Proof.
  induction rs as [| r rs IH]; [reflexivity |].
  destruct r; exact IH.
Qed.

Lemma nominal_of_app (l1 l2 : list event) :
  nominal_of (l1 ++ l2) = nominal_of l1 ++ nominal_of l2.
Proof.
  induction l1 as [| ev l1 IH]; [reflexivity |].
  destruct ev; simpl; now rewrite IH.
Qed.

Lemma low_excludes_ceiling (w : widgets) :
  (altitude w <? 30) = true -> (altitude w >? 610) = false.
Proof.
  intros H. apply Z.ltb_lt in H. rewrite Z.gtb_ltb. apply Z.ltb_ge. lia.
Qed.

Lemma NoDup_map_injective {A B : Type} (f : A -> B) (l : list A) :
  (forall x y, f x = f y -> x = y) -> NoDup l -> NoDup (map f l).
Proof.
  intros Hinj Hl. induction Hl as [| a l Hnotin _ IH]; simpl; constructor.
  - intros Hin. apply in_map_iff in Hin. destruct Hin as [b [Hb Hin]].
    apply Hinj in Hb. now subst b.
  - exact IH.
Qed.

(** X8.  The banners come in the order of the tests in the script, each at
    most once. *)
Theorem alerts_in_script_order (w : widgets) :
  active_alerts w =
    map Spec.alert_for
      (filter (fun r => Spec.condition r w)
         [ Spec.HighClimbRate; Spec.SinkRate; Spec.HardLanding;
           Spec.Overweight; Spec.AltitudeCeiling; Spec.HeatCritical;
           Spec.Freezing; Spec.ReserveLow; Spec.HighWind ]) /\
  NoDup (active_alerts w).
Proof.
  split; [apply active_alerts_table |].
  rewrite active_alerts_table.
  apply NoDup_map_injective.
  - apply alert_for_inj.
  - apply NoDup_filter. unfold Spec.all_rules.
    repeat (constructor; [simpl; intuition discriminate |]). constructor.
Qed.

(** X9.  No snapshot raises more than six banners, and six are reached
    within the slider ranges. *)
Theorem at_most_six_alerts :
  (forall w, (List.length (active_alerts w) <= 6)%nat) /\
  slider_ranges six_alerts_snapshot /\
  List.length (active_alerts six_alerts_snapshot) = 6%nat.
Proof.
  split.
  - intros w. rewrite active_alerts_table, length_map.
    unfold Spec.all_rules, filter, Spec.condition.
    destruct (float_gt (climb_rate w) f8_0) eqn:Hc.
    + rewrite (climb_excludes_sink _ Hc).
      destruct (float_lt (climb_rate w) fm3_0) eqn:Hd;
        [rewrite (climb_excludes_descent _ Hd) in Hc; discriminate Hc |].
      rewrite andb_false_r.
      destruct (ambient_temp w >? 45) eqn:Ht;
        try rewrite (heat_excludes_freezing _ Ht);
        destruct (payload w >? 600), (altitude w >? 610), (soc w <? 30),
          (wind_speed w >? 15);
        try destruct (ambient_temp w <? -10); simpl; lia.
    + destruct (altitude w <? 30) eqn:Ha;
        [rewrite (low_excludes_ceiling _ Ha) |];
        destruct (ambient_temp w >? 45) eqn:Ht;
        try rewrite (heat_excludes_freezing _ Ht);
        destruct (float_lt (climb_rate w) fm5_0),
          (float_lt (climb_rate w) fm3_0), (payload w >? 600),
          (soc w <? 30), (wind_speed w >? 15);
        try destruct (altitude w >? 610);
        try destruct (ambient_temp w <? -10); simpl; lia.
  - split; [| reflexivity].
    unfold slider_ranges, six_alerts_snapshot, snapshot; simpl.
    repeat split; try lia; reflexivity.
Qed.

(** X10.  The success banner and the alerts exclude each other: the pass
    shows the success banner, once, when the alert list is empty, and no
    success banner otherwise. *)
Theorem success_banner_iff_no_alert (w : widgets) :
  (active_alerts w = [] /\
   nominal_of (snd (active_alerts_pass w)) = [msg_nominal]) \/
  (active_alerts w <> [] /\ nominal_of (snd (active_alerts_pass w)) = []).
Proof.
  rewrite active_alerts_table, pass_log, nominal_of_app, nominal_of_rules,
    existsb_filter.
  destruct (filter _ Spec.all_rules) as [| r rs]; simpl.
  - left. split; reflexivity.
  - right. split; [discriminate | reflexivity].
Qed.

(** X11.  Below 30 m a sink-rate alert never comes alone: the hard-landing
    alert is raised with it. *)
Theorem sink_near_ground_is_hard_landing (w : widgets) :
  altitude w < 30 ->
  In (Spec.alert_for Spec.SinkRate) (active_alerts w) ->
  In (Spec.alert_for Spec.HardLanding) (active_alerts w).
Proof.
  rewrite !fires_iff. simpl. intros Ha Hs.
  apply andb_true_iff. split; [now apply Z.ltb_lt |].
  now apply sink_is_descent.
Qed.

Lemma sink_near_ground_is_hard_landing_example :
  In (Spec.alert_for Spec.HardLanding)
     (active_alerts (snapshot 500 20 80 25 5 fm6_0)).
Proof.
  apply (sink_near_ground_is_hard_landing (snapshot 500 20 80 25 5 fm6_0)).
  - simpl. lia.
  - apply fires_iff. reflexivity.
Defined.

(** X12.  The hard-landing alert is never up together with the high climb
    rate alert, nor together with the altitude ceiling alert. *)
Theorem hard_landing_exclusions (w : widgets) :
  ~ (In (Spec.alert_for Spec.HardLanding) (active_alerts w) /\
     In (Spec.alert_for Spec.HighClimbRate) (active_alerts w)) /\
  ~ (In (Spec.alert_for Spec.HardLanding) (active_alerts w) /\
     In (Spec.alert_for Spec.AltitudeCeiling) (active_alerts w)).
Proof.
  rewrite !fires_iff. simpl. split.
  - intros [Hl Hc]. apply andb_true_iff in Hl. destruct Hl as [_ Hd].
    rewrite (climb_excludes_descent _ Hd) in Hc. discriminate.
  - intros [Hl Hc]. apply andb_true_iff in Hl. destruct Hl as [Ha _].
    rewrite (low_excludes_ceiling _ Ha) in Hc. discriminate.
Qed.

(** X13.  A vertical speed that is not a number raises none of the three
    vertical-speed alerts, whatever the altitude. *)
Theorem nan_climb_rate_raises_no_alert (w : widgets) :
  climb_rate w = S754_nan ->
  ~ In (Spec.alert_for Spec.HighClimbRate) (active_alerts w) /\
  ~ In (Spec.alert_for Spec.SinkRate) (active_alerts w) /\
  ~ In (Spec.alert_for Spec.HardLanding) (active_alerts w).
Proof.
  intros Hnan. rewrite !fires_iff. simpl. rewrite Hnan.
  unfold float_gt, float_lt. simpl. rewrite andb_false_r.
  repeat split; discriminate.
Qed.

Lemma nan_climb_rate_raises_no_alert_near_ground :
  ~ In (Spec.alert_for Spec.HardLanding)
       (active_alerts (snapshot 500 20 80 25 5 S754_nan)).
Proof.
  apply (nan_climb_rate_raises_no_alert (snapshot 500 20 80 25 5 S754_nan)).
  reflexivity.
Defined.

(** X14.  The battery temperature and the motor power demand are read by
    no alert test: two snapshots that agree on the other six sliders get
    the same banners. *)
Theorem alerts_ignore_display_only_fields (w w' : widgets) :
  same_alert_inputs w w' ->
  active_alerts_pass w = active_alerts_pass w'.
Proof.
  intros (Hp & Ha & Hs & Ht & Hw & Hc).
  unfold active_alerts_pass. now rewrite Hp, Ha, Hs, Ht, Hw, Hc.
Qed.

Lemma alerts_ignore_display_only_fields_hot_battery :
  active_alerts_pass
    {| payload := 500; altitude := 150; soc := 80; ambient_temp := 25;
       wind_speed := 5; climb_rate := f0_0; battery_temp := 90;
       thrust_demand := 100 |} =
  active_alerts_pass slider_defaults.
Proof.
  apply alerts_ignore_display_only_fields.
  unfold same_alert_inputs. simpl. repeat split.
Defined.

(** X15.  Every rule can be made to fire, alone, with values the sliders
    allow; the slider defaults themselves lie within the ranges. *)
Theorem every_alert_reachable_alone (r : Spec.rule) :
  slider_ranges (trigger r) /\
  active_alerts (trigger r) = [Spec.alert_for r] /\
  slider_ranges slider_defaults.
Proof.
  split; [| split].
  - unfold slider_ranges; destruct r; simpl;
      repeat split; try lia; reflexivity.
  - destruct r; reflexivity.
  - unfold slider_ranges; simpl. repeat split; try lia; reflexivity.
Qed.

(** ** The metrics and the gauge *)

Section Metrics.

Variables (model : Model) (scaler : Scaler) (w : widgets).

Let log : list event := snd (page model scaler w).

Lemma completed_metrics :
  failed (page model scaler w) = false ->
  metric_of "Payload Margin" log = Some (600 - payload w, "normal") /\
  metric_of "Temp Margin" log = Some (45 - ambient_temp w, "inverse") /\
  metric_of "Batt Reserve" log =
    Some (soc w, if soc w >=? 30 then "off" else "inverse") /\
  metric_of "Alt Margin" log = Some (610 - altitude w, "normal") /\
  alerts_of log = active_alerts w.
Proof.
  intros Hok. unfold log. rewrite page_alerts, Hok.
  destruct (page_outcome model scaler w); rewrite Hpage in *;
    try discriminate Hok.
  repeat split.
Qed.

(** X16.  On a page drawn to the end the metric tiles and the banners
    agree: the payload, temperature and altitude margins are negative
    exactly when the overweight, heat and ceiling alerts are up, and the
    battery tile is flagged "inverse" exactly when the reserve alert is. *)
Theorem metrics_agree_with_alerts :
  failed (page model scaler w) = false ->
  (exists v dc, metric_of "Payload Margin" log = Some (v, dc) /\
     (v < 0 <-> In (Spec.alert_for Spec.Overweight) (alerts_of log))) /\
  (exists v dc, metric_of "Temp Margin" log = Some (v, dc) /\
     (v < 0 <-> In (Spec.alert_for Spec.HeatCritical) (alerts_of log))) /\
  (exists v dc, metric_of "Alt Margin" log = Some (v, dc) /\
     (v < 0 <-> In (Spec.alert_for Spec.AltitudeCeiling) (alerts_of log))) /\
  (exists v dc, metric_of "Batt Reserve" log = Some (v, dc) /\
     v = soc w /\
     (dc = "inverse" <-> In (Spec.alert_for Spec.ReserveLow) (alerts_of log)) /\
     (dc = "off" <-> ~ In (Spec.alert_for Spec.ReserveLow) (alerts_of log))).
Proof.
  intros Hok.
  destruct (completed_metrics Hok) as (Hp & Ht & Hb & Ha & Halerts).
  rewrite Hp, Ht, Hb, Ha, Halerts.
  split; [| split; [| split]].
  1-3: do 2 eexists; (split; [reflexivity |]);
    rewrite fires_iff; unfold Spec.condition; rewrite Z.gtb_lt; lia.
  exists (soc w), (if soc w >=? 30 then "off" else "inverse").
  split; [reflexivity |]. split; [reflexivity |].
  rewrite fires_iff. unfold Spec.condition. rewrite Z.geb_leb, Z.ltb_lt.
  destruct (Z.leb_spec 30 (soc w)); split; split; intros;
    try discriminate; try lia; try reflexivity.
Qed.

(** X17.  The temperature margin only measures the distance to the upper
    limit: while the freezing alert is up the tile shows a margin above 55
    degrees. *)
Theorem temp_margin_blind_to_freezing :
  failed (page model scaler w) = false ->
  In (Spec.alert_for Spec.Freezing) (alerts_of log) ->
  exists v dc, metric_of "Temp Margin" log = Some (v, dc) /\ v > 55.
Proof.
  intros Hok.
  destruct (completed_metrics Hok) as (_ & Ht & _ & _ & Halerts).
  rewrite Ht, Halerts, fires_iff. unfold Spec.condition.
  rewrite Z.ltb_lt. intros Hcold.
  do 2 eexists. split; [reflexivity | lia].
Qed.

(** X19.  The model is asked for a class once in every run, and for the
    probabilities exactly when that first call returned, whether or not
    the index is then usable; both calls get the same frame. *)
Theorem probabilities_asked_iff_predict_returned :
  (model_inputs log = [input_data w; input_data w] <->
   exists i, predict model (input_data w) = inr i) /\
  (model_inputs log = [input_data w] <->
   exists e, predict model (input_data w) = inl e).
Proof.
  destruct (banners_only _ (pass_banners w)) as (_ & _ & Hm & _).
  unfold log.
  destruct (page_outcome model scaler w); rewrite Hpage; simpl;
    rewrite ?Hm; rewrite Hpredict; split; split;
    try discriminate; try (intros [? H]; discriminate H); eauto.
Qed.

End Metrics.

Lemma metrics_agree_with_alerts_overweight :
  exists v dc,
    metric_of "Payload Margin"
      (snd (page (constant_model 1) identity_scaler
              (trigger Spec.Overweight))) = Some (v, dc) /\
    (v < 0 <->
     In (Spec.alert_for Spec.Overweight)
        (alerts_of (snd (page (constant_model 1) identity_scaler
                           (trigger Spec.Overweight))))).
Proof.
  apply (metrics_agree_with_alerts (constant_model 1) identity_scaler
           (trigger Spec.Overweight)).
  reflexivity.
Defined.

Lemma temp_margin_blind_to_freezing_example :
  exists v dc,
    metric_of "Temp Margin"
      (snd (page (constant_model 1) identity_scaler (trigger Spec.Freezing)))
    = Some (v, dc) /\ v > 55.
Proof.
  apply (temp_margin_blind_to_freezing (constant_model 1) identity_scaler
           (trigger Spec.Freezing)).
  - reflexivity.
  - rewrite page_alerts. simpl. left. reflexivity.
Defined.

(** X18.  The gauge recognises the two exact strings "Unsafe" and
    "Marginal" and reads SAFE, green, 85 for every other label; value,
    colour and status always belong to the same class. *)
Theorem gauge_falls_back_to_safe (l : string) :
  (status_text l = "UNSAFE" <-> l = "Unsafe") /\
  (status_text l = "MARGINAL" <-> l = "Marginal") /\
  (status_text l = "SAFE" <-> l <> "Unsafe" /\ l <> "Marginal") /\
  (gauge_value l = 15 <-> status_text l = "UNSAFE") /\
  (gauge_value l = 50 <-> status_text l = "MARGINAL") /\
  (gauge_value l = 85 <-> status_text l = "SAFE") /\
  (gauge_color l = "red" <-> status_text l = "UNSAFE") /\
  (gauge_color l = "orange" <-> status_text l = "MARGINAL") /\
  (gauge_color l = "green" <-> status_text l = "SAFE").
Proof.
  unfold status_text, gauge_value, gauge_color, gauge.
  destruct (String.eqb_spec l "Unsafe") as [-> | Hu];
    [| destruct (String.eqb_spec l "Marginal") as [-> | Hm]];
    simpl; repeat split; intros; try discriminate; try tauto;
    try congruence;
    try (match goal with H : _ /\ _ |- _ => destruct H; congruence end).
Qed.
